(** * SQLite dialect data types (lib/dialects/sqlite/data-types.js)

    A shallow embedding of the dialect type table: the reverse-alias table,
    the constructors, the [toSql] renderers, the [parse] hooks and [extend],
    followed by the properties of the table that are proved about them. *)

From Stdlib Require Import ZArith DecimalString Ascii String List Lia.
From stdpp Require Import gmap strings.

Local Open Scope string_scope.
#[local] Arguments String.append : simpl nomatch.

(** ** JavaScript values *)

(** A JavaScript number.  The three special values are kept apart.  Of the
    finite numbers the model has the integers (lengths, decimals and scales
    are column sizes), printed in plain decimal; that is what
    [Number::toString] prints for the integers a double holds exactly, those
    of magnitude up to 2^53.  Larger integers, which a double rounds, and
    fractional numbers are outside the model. *)
Inductive JsNumber : Type :=
  | NaN
  | Infinity
  | NegInfinity
  | Finite (z : Z).

(** The values that reach this module: primitives and arrays of them. *)
#[warnings="-register-all"]
Inductive JsValue : Type :=
  | JUndefined
  | JNull
  | JBool (b : bool)
  | JNumber (n : JsNumber)
  | JString (s : string)
  | JArray (elements : list JsValue).

Definition NumberToString (n : JsNumber) : string :=
  match n with
  | NaN => "NaN"
  | Infinity => "Infinity"
  | NegInfinity => "-Infinity"
  | Finite z => NilZero.string_of_int (Z.to_int z)
  end.

(** [ToString], the conversion a template literal applies to [${v}].  An
    array prints its elements separated by commas, [undefined] and [null]
    elements printing as the empty string. *)
Fixpoint ToString (v : JsValue) : string :=
  match v with
  | JUndefined => "undefined"
  | JNull => "null"
  | JBool true => "true"
  | JBool false => "false"
  | JNumber n => NumberToString n
  | JString s => s
  | JArray elements =>
      (fix join (l : list JsValue) : string :=
         match l with
         | [] => ""
         | x :: rest =>
             let here :=
               match x with
               | JUndefined | JNull => ""
               | _ => ToString x
               end in
             match rest with
             | [] => here
             | _ :: _ => here +:+ "," +:+ join rest
             end
         end) elements
  end.

(** [ToBoolean]: what [if (v)] tests. *)
Definition truthy (v : JsValue) : bool :=
  match v with
  | JUndefined | JNull => false
  | JBool b => b
  | JNumber NaN => false
  | JNumber (Finite z) => negb (z =? 0)%Z
  | JNumber _ => true
  | JString s => negb (String.eqb s "")
  | JArray _ => true
  end.

Definition typeof (v : JsValue) : string :=
  match v with
  | JUndefined => "undefined"
  | JNull => "object"
  | JBool _ => "boolean"
  | JNumber _ => "number"
  | JString _ => "string"
  | JArray _ => "object"
  end.

(** [_.isString] *)
Definition isString (v : JsValue) : bool :=
  match v with
  | JString _ => true
  | _ => false
  end.

(** [v === 'literal'], strict equality with a string literal. *)
Definition strictEqualsString (v : JsValue) (literal : string) : bool :=
  match v with
  | JString s => String.eqb s literal
  | _ => false
  end.

(** [String.prototype.includes] *)
Fixpoint includes (s sub : string) : bool :=
  String.prefix sub s ||
  match s with
  | EmptyString => false
  | String _ rest => includes rest sub
  end.

(** [String.prototype.endsWith] *)
Fixpoint endsWith (s sub : string) : bool :=
  String.eqb s sub ||
  match s with
  | EmptyString => false
  | String _ rest => endsWith rest sub
  end.

(** An options object: property name to value; a property that is not
    there reads as [undefined]. *)
Definition prop (o : gmap string JsValue) (name : string) : JsValue :=
  default JUndefined (o !! name).

(** ** The abstract types this module is applied to *)

Module BaseTypes.

(** The members of [BaseTypes] the module refers to. *)
Inductive t : Type :=
  | DATE | STRING | CHAR | TEXT | TINYINT | SMALLINT | MEDIUMINT
  | INTEGER | BIGINT | FLOAT | TIME | DATEONLY | BOOLEAN | BLOB
  | DECIMAL | UUID | ENUM | REAL | DOUBLE | GEOMETRY | JSON
  | NUMBER | CITEXT.

#[global] Instance t_eq_dec : EqDecision t.
Proof. solve_decision. Defined.

(** [BaseTypes.X.types.sqlite = ...], in the order of the assignments.
    [None] is the marker [false]. *)
Definition types_sqlite : list (t * option (list string)) :=
  [ (DATE, Some ["DATETIME"]);
    (STRING, Some ["VARCHAR"; "VARCHAR BINARY"]);
    (CHAR, Some ["CHAR"; "CHAR BINARY"]);
    (TEXT, Some ["TEXT"]);
    (TINYINT, Some ["TINYINT"]);
    (SMALLINT, Some ["SMALLINT"]);
    (MEDIUMINT, Some ["MEDIUMINT"]);
    (INTEGER, Some ["INTEGER"]);
    (BIGINT, Some ["BIGINT"]);
    (FLOAT, Some ["FLOAT"]);
    (TIME, Some ["TIME"]);
    (DATEONLY, Some ["DATE"]);
    (BOOLEAN, Some ["TINYINT"]);
    (BLOB, Some ["TINYBLOB"; "BLOB"; "LONGBLOB"]);
    (DECIMAL, Some ["DECIMAL"]);
    (UUID, Some ["UUID"]);
    (ENUM, None);
    (REAL, Some ["REAL"]);
    (DOUBLE, Some ["DOUBLE PRECISION"]);
    (GEOMETRY, None);
    (JSON, Some ["JSON"; "JSONB"]) ].

(** The entry of one abstract type: [None] when the module assigns
    nothing, [Some None] for the unsupported marker. *)
Definition sqlite (T : t) : option (option (list string)) :=
  snd <$> List.find (fun row => bool_decide (fst row = T)) types_sqlite.

(** Modelled from the spec: the [key] the abstract types put on their
    prototype (lib/data-types.js is not among the sources).  It is the
    type's name; for the exported types it is the name under which the
    module exports them, DOUBLE being exported as 'DOUBLE PRECISION'. *)
Definition key (T : t) : string :=
  match T with
  | DATE => "DATE" | STRING => "STRING" | CHAR => "CHAR" | TEXT => "TEXT"
  | TINYINT => "TINYINT" | SMALLINT => "SMALLINT"
  | MEDIUMINT => "MEDIUMINT" | INTEGER => "INTEGER" | BIGINT => "BIGINT"
  | FLOAT => "FLOAT" | TIME => "TIME" | DATEONLY => "DATEONLY"
  | BOOLEAN => "BOOLEAN" | BLOB => "BLOB" | DECIMAL => "DECIMAL"
  | UUID => "UUID" | ENUM => "ENUM" | REAL => "REAL"
  | DOUBLE => "DOUBLE PRECISION" | GEOMETRY => "GEOMETRY" | JSON => "JSON"
  | NUMBER => "NUMBER" | CITEXT => "CITEXT"
  end.

End BaseTypes.

(** ** The dialect types *)

(** The constructors the module defines. *)
Inductive DataType : Type :=
  | DATE | DATEONLY | STRING | CHAR | NUMBER | FLOAT | REAL | DOUBLE
  | TINYINT | SMALLINT | MEDIUMINT | INTEGER | BIGINT | TEXT | ENUM
  | JSONTYPE | CITEXT.

#[global] Instance DataType_eq_dec : EqDecision DataType.
Proof. solve_decision. Defined.

(** [inherits(X, BaseTypes.Y)] *)
Definition base (T : DataType) : BaseTypes.t :=
  match T with
  | DATE => BaseTypes.DATE
  | DATEONLY => BaseTypes.DATEONLY
  | STRING => BaseTypes.STRING
  | CHAR => BaseTypes.CHAR
  | NUMBER => BaseTypes.NUMBER
  | FLOAT => BaseTypes.FLOAT
  | REAL => BaseTypes.REAL
  | DOUBLE => BaseTypes.DOUBLE
  | TINYINT => BaseTypes.TINYINT
  | SMALLINT => BaseTypes.SMALLINT
  | MEDIUMINT => BaseTypes.MEDIUMINT
  | INTEGER => BaseTypes.INTEGER
  | BIGINT => BaseTypes.BIGINT
  | TEXT => BaseTypes.TEXT
  | ENUM => BaseTypes.ENUM
  | JSONTYPE => BaseTypes.JSON
  | CITEXT => BaseTypes.CITEXT
  end.

(** The [exports] object, in the order of its properties. *)
Definition exports : list (string * DataType) :=
  [ ("DATE", DATE); ("DATEONLY", DATEONLY); ("STRING", STRING);
    ("CHAR", CHAR); ("NUMBER", NUMBER); ("FLOAT", FLOAT); ("REAL", REAL);
    ("DOUBLE PRECISION", DOUBLE); ("TINYINT", TINYINT);
    ("SMALLINT", SMALLINT); ("MEDIUMINT", MEDIUMINT);
    ("INTEGER", INTEGER); ("BIGINT", BIGINT); ("TEXT", TEXT);
    ("ENUM", ENUM); ("JSON", JSONTYPE); ("CITEXT", CITEXT) ].

(** A type instance: the prototype it was built from and its own fields. *)
Record Instance : Type := mkInstance {
  proto : DataType;
  options : gmap string JsValue;
  _length : JsValue;
  _binary : JsValue;
  _unsigned : JsValue;
  _zerofill : JsValue;
  _decimals : JsValue
}.

(** [this.key], found on the prototype chain. *)
Definition key (this : Instance) : string := BaseTypes.key (base (proto this)).

Definition set_length (v : JsValue) (i : Instance) : Instance :=
  mkInstance (proto i) (options i) v (_binary i) (_unsigned i) (_zerofill i)
    (_decimals i).

Definition set_unsigned (v : JsValue) (i : Instance) : Instance :=
  mkInstance (proto i) (options i) (_length i) (_binary i) v (_zerofill i)
    (_decimals i).

Definition set_zerofill (v : JsValue) (i : Instance) : Instance :=
  mkInstance (proto i) (options i) (_length i) (_binary i) (_unsigned i) v
    (_decimals i).

(** ** Methods: state passing over [this], with the warnings emitted *)

(** One call of [BaseTypes.ABSTRACT.warn(link, text)]. *)
Record Warning : Type := mkWarning { link : string; text : string }.

(** A method body run on an instance returns a value, leaves the instance
    in a new state and has made a sequence of [warn] calls. *)
Definition Method (A : Type) : Type := Instance -> A * Instance * list Warning.

#[global] Instance Method_ret : MRet Method :=
  fun A a this => (a, this, []).

#[global] Instance Method_bind : MBind Method :=
  fun A B k m this =>
    let '(a, this1, w1) := m this in
    let '(b, this2, w2) := k a this1 in
    (b, this2, (w1 ++ w2)%list).

Definition self : Method Instance := fun this => (this, this, []).

Definition assign (f : Instance -> Instance) : Method unit :=
  fun this => (tt, f this, []).

(** [const warn = BaseTypes.ABSTRACT.warn.bind(undefined, <link>)] *)
Definition warn (message : string) : Method unit :=
  fun this =>
    (tt, this, [mkWarning "https://www.sqlite.org/datatype3.html" message]).

Definition result {A} (r : A * Instance * list Warning) : A := fst (fst r).
Definition after {A} (r : A * Instance * list Warning) : Instance :=
  snd (fst r).
Definition warnings {A} (r : A * Instance * list Warning) : list Warning :=
  snd r.

(** ** Construction *)

(** [removeUnsupportedIntegerOptions(dataType)] *)
Definition removeUnsupportedIntegerOptions : Method unit :=
  dataType ← self;
  if truthy (_zerofill dataType) || truthy (_unsigned dataType) then
    warn ("SQLite does not support '" +:+ key dataType +:+
          "' with UNSIGNED or ZEROFILL. Plain '" +:+ key dataType +:+
          "' will be used instead.");;
    assign (set_unsigned JUndefined);;
    assign (set_zerofill JUndefined)
  else
    mret tt.

(** Modelled from the spec: [BaseTypes.X.apply(this, arguments)], the
    constructors of the abstract types (lib/data-types.js is not among the
    sources).  The abstract constructor is given the options object, keeps
    it as [this.options] and exposes the construction options (length,
    binary flag, unsigned and zerofill flags, decimals) as fields. *)
Definition BaseTypes_apply (T : DataType) (o : gmap string JsValue)
  : Instance :=
  {| proto := T;
     options := o;
     _length := prop o "length";
     _binary := prop o "binary";
     _unsigned := prop o "unsigned";
     _zerofill := prop o "zerofill";
     _decimals := prop o "decimals" |}.

(** What each constructor does after the abstract constructor has run
    (called without [new], it calls itself with [new]). *)
Definition constructor (T : DataType) : Method unit :=
  match T with
  | TINYINT => removeUnsupportedIntegerOptions
  | SMALLINT => removeUnsupportedIntegerOptions
  | MEDIUMINT => removeUnsupportedIntegerOptions
  | INTEGER => removeUnsupportedIntegerOptions
  | BIGINT => removeUnsupportedIntegerOptions
  | DATE | DATEONLY | STRING | CHAR | NUMBER | FLOAT | REAL | DOUBLE
  | TEXT | ENUM | JSONTYPE | CITEXT => mret tt
  end.

(** [new T(options)]: the instance and the warnings of its construction. *)
Definition construct (T : DataType) (o : gmap string JsValue)
  : Instance * list Warning :=
  let r := constructor T (BaseTypes_apply T o) in (after r, warnings r).

(** [DataType.extend = oldType => new DataType(oldType.options)], which the
    final loop puts on every exported constructor. *)
Definition extend (T : DataType) (oldType : Instance)
  : Instance * list Warning :=
  construct T (options oldType).

(** Instances are objects: in a store of instances, by address,
    [DataType.extend(oldType)] reads the options of the instance [oldType]
    refers to and allocates the instance it builds at a fresh address.
    [None] is the TypeError of reading [options] of no instance. *)
Definition extend_in_store
  (T : DataType) (oldType : nat) (store : gmap nat Instance)
  : option (nat * gmap nat Instance * list Warning) :=
  old ← store !! oldType;
  let built := extend T old in
  let address := fresh (dom store) in
  Some (address, <[address := fst built]> store, snd built).

(** [DataType.key], which the final loop sets to the export name where the
    constructor has none. *)
Definition export_key (T : DataType) : option string :=
  fst <$> List.find (fun e => bool_decide (snd e = T)) exports.

(** ** Rendering *)

(** Modelled from the spec: [BaseTypes.STRING.prototype.toSql], which the
    module falls back to for a STRING without the binary flag
    (lib/data-types.js is not among the sources): [VARCHAR(length)]. *)
Definition BaseTypes_STRING_toSql : Method string :=
  this ← self;
  mret ("VARCHAR(" +:+ ToString (_length this) +:+ ")").

(** Modelled from the spec: [BaseTypes.CHAR.prototype.toSql], the fallback
    for a CHAR without the binary flag: [CHAR(length)]. *)
Definition BaseTypes_CHAR_toSql : Method string :=
  this ← self;
  mret ("CHAR(" +:+ ToString (_length this) +:+ ")").

Definition STRING_toSql : Method string :=
  this ← self;
  if truthy (_binary this) then
    mret ("VARCHAR BINARY(" +:+ ToString (_length this) +:+ ")")
  else
    BaseTypes_STRING_toSql.

Definition TEXT_toSql : Method string :=
  this ← self;
  (if truthy (_length this) then
     warn "SQLite does not support TEXT with options. Plain `TEXT` will be used instead.";;
     assign (set_length JUndefined)
   else
     mret tt);;
  mret "TEXT".

Definition CITEXT_toSql : Method string :=
  mret "TEXT COLLATE NOCASE".

Definition CHAR_toSql : Method string :=
  this ← self;
  if truthy (_binary this) then
    mret ("CHAR BINARY(" +:+ ToString (_length this) +:+ ")")
  else
    BaseTypes_CHAR_toSql.

Definition NUMBER_toSql : Method string :=
  this ← self;
  let result := key this in
  let result :=
    if truthy (_unsigned this) then result +:+ " UNSIGNED" else result in
  let result :=
    if truthy (_zerofill this) then result +:+ " ZEROFILL" else result in
  let result :=
    if truthy (_length this) then
      let result := result +:+ "(" +:+ ToString (_length this) in
      let result :=
        if String.eqb (typeof (_decimals this)) "number"
        then result +:+ "," +:+ ToString (_decimals this)
        else result in
      result +:+ ")"
    else result in
  mret result.

Definition ENUM_toSql : Method string :=
  mret "TEXT".

(** The [toSql] the module puts on each prototype; [None] where it puts
    none and the method of the abstract type stays in place. *)
Definition prototype_toSql (T : DataType) : option (Method string) :=
  match T with
  | DATE => None
  | DATEONLY => None
  | STRING => Some STRING_toSql
  | TEXT => Some TEXT_toSql
  | CITEXT => Some CITEXT_toSql
  | CHAR => Some CHAR_toSql
  | NUMBER => Some NUMBER_toSql
  | TINYINT => Some NUMBER_toSql
  | SMALLINT => Some NUMBER_toSql
  | MEDIUMINT => Some NUMBER_toSql
  | INTEGER => Some NUMBER_toSql
  | BIGINT => Some NUMBER_toSql
  | FLOAT => Some NUMBER_toSql
  | DOUBLE => Some NUMBER_toSql
  | REAL => Some NUMBER_toSql
  | ENUM => Some ENUM_toSql
  | JSONTYPE => None
  end.

(** ** Reverse mapping *)

(** Modelled from the spec: the reverse lookup (the code that consults
    [types.sqlite] is not among the sources).  Each abstract type records
    the native type names that identify it; looking a name up gives the
    abstract types whose alias list holds it, in the order of the table. *)
Definition reverseLookup (name : string) : list BaseTypes.t :=
  fst <$>
    List.filter
      (fun row =>
         match snd row with
         | Some aliases => bool_decide (name ∈ aliases)
         | None => false
         end)
      BaseTypes.types_sqlite.

(** Modelled from the spec: the native SQL type name of a rendered column
    type (the code that reads it off is not among the sources): the text
    before the parenthesised length, all of it when there is none. *)
Fixpoint nativeTypeName (sql : string) : string :=
  match sql with
  | EmptyString => EmptyString
  | String c rest =>
      if Ascii.eqb c "("%char then EmptyString
      else String c (nativeTypeName rest)
  end.

(** ** Parsing *)

Definition DATEONLY_parse (date : JsValue) : JsValue := date.

(** The [parse] of FLOAT, DOUBLE and REAL. *)
Definition floating_parse (value : JsValue) : JsValue :=
  if isString value then
    if strictEqualsString value "NaN" then JNumber NaN
    else if strictEqualsString value "Infinity" then JNumber Infinity
    else if strictEqualsString value "-Infinity" then JNumber NegInfinity
    else value
  else value.

(** [[FLOAT, DOUBLE, REAL].forEach(floating => floating.parse = ...)] *)
Definition floating : list DataType := [FLOAT; DOUBLE; REAL].

(** The [parse] hooks that take a raw value to a value.  The two others,
    [DATE.parse] and [JSON.parse], end in a timestamp and in a completion
    and are [DATE_parse] and [JSONTYPE_parse] below. *)
Definition parse (T : DataType) : option (JsValue -> JsValue) :=
  if bool_decide (T ∈ floating) then Some floating_parse
  else if bool_decide (T = DATEONLY) then Some DATEONLY_parse
  else None.

(** How a call ends: with a value, or with an exception thrown to the
    caller. *)
Inductive Completion (A E : Type) : Type :=
  | Normal (value : A)
  | Throw (exception : E).
Arguments Normal {A E} value.
Arguments Throw {A E} exception.

Section Builtins.

(** [new Date(string)]: the timestamp the host reads from a string. *)
Variable Timestamp : Type.
Variable newDate : string -> Timestamp.

(** [DATE.parse(date, options)], [timezone] being [options.timezone]. *)
Definition DATE_parse (date timezone : string) : Timestamp :=
  if negb (includes date "+") then
    newDate (date +:+ timezone)
  else
    newDate date.

(** [JSON.parse] of the host: a decoded value, or a SyntaxError. *)
Variable Json SyntaxError : Type.
Variable JSON_parse : JsValue -> Completion Json SyntaxError.

(** [JSONTYPE.parse(data)]: no handler around the call. *)
Definition JSONTYPE_parse (data : JsValue) : Completion Json SyntaxError :=
  JSON_parse data.

End Builtins.

Arguments DATE_parse {Timestamp} newDate date timezone.
Arguments JSONTYPE_parse {Json SyntaxError} JSON_parse data.

(** ** Vocabulary of the statements *)

Definition integerTypes : list DataType :=
  [TINYINT; SMALLINT; MEDIUMINT; INTEGER; BIGINT].

(** The parenthesised part of a rendered number type. *)
Definition lengthClause (this : Instance) : string :=
  if truthy (_length this) then
    "(" +:+ ToString (_length this) +:+
    (if String.eqb (typeof (_decimals this)) "number"
     then "," +:+ ToString (_decimals this) else "") +:+ ")"
  else "".

Fixpoint lastChar (s : string) : option ascii :=
  match s with
  | EmptyString => None
  | String c rest =>
      match lastChar rest with
      | Some d => Some d
      | None => Some c
      end
  end.

Fixpoint noSpace (s : string) : bool :=
  match s with
  | EmptyString => true
  | String c rest => negb (Ascii.eqb c " "%char) && noSpace rest
  end.

(** The string has no opening parenthesis in it. *)
Definition noParen (s : string) : bool :=
  negb (includes s "(").

Definition isDigit (c : ascii) : bool :=
  (48 <=? nat_of_ascii c)%nat && (nat_of_ascii c <=? 57)%nat.

(** A negative timezone offset, [-hh:mm]. *)
Definition isNegativeOffset (s : string) : bool :=
  match s with
  | String "-" (String h1 (String h2 (String ":" (String m1 (String m2 ""))))) =>
      isDigit h1 && isDigit h2 && isDigit m1 && isDigit m2
  | _ => false
  end.

(** The string carries a negative offset at its end. *)
Fixpoint endsWithNegativeOffset (s : string) : bool :=
  isNegativeOffset s ||
  match s with
  | EmptyString => false
  | String _ rest => endsWithNegativeOffset rest
  end.

(** The abstract type is supported by the reverse mapping: its entry is a
    list of aliases, not the marker [false]. *)
Definition reverseSupported (T : DataType) : option (list string) :=
  match BaseTypes.sqlite (base T) with
  | Some (Some aliases) => Some aliases
  | _ => None
  end.

Definition set_decimals (v : JsValue) (i : Instance) : Instance :=
  mkInstance (proto i) (options i) (_length i) (_binary i) (_unsigned i)
    (_zerofill i) v.

(** The types whose rendering is [NUMBER.prototype.toSql]. *)
Definition numberTypes : list DataType :=
  [NUMBER; TINYINT; SMALLINT; MEDIUMINT; INTEGER; BIGINT; FLOAT; DOUBLE; REAL].

(** * Properties *)

(** ** Strings *)

Lemma append_assoc (a b c : string) : (a +:+ b) +:+ c = a +:+ (b +:+ c).
Proof. induction a as [|x a IH]; simpl; [reflexivity | now rewrite IH]. Qed.

Lemma append_empty_r (a : string) : a +:+ "" = a.
Proof. induction a as [|x a IH]; simpl; [reflexivity | now rewrite IH]. Qed.

Lemma lastChar_None (s : string) : lastChar s = None -> s = "".
Proof.
  destruct s as [|c rest]; [reflexivity | simpl].
  now destruct (lastChar rest).
Qed.

Lemma lastChar_snoc (s : string) (c : ascii) :
  lastChar (s +:+ String c "") = Some c.
Proof.
  induction s as [|x s IH]; simpl; [reflexivity | now rewrite IH].
Qed.

Lemma endsWith_lastChar (s sub : string) :
  endsWith s sub = true -> sub <> "" -> lastChar s = lastChar sub.
Proof.
  intros H Hsub. induction s as [|c rest IH].
  - cbn [endsWith] in H. rewrite orb_false_r in H.
    apply String.eqb_eq in H. now subst.
  - cbn [endsWith] in H. apply orb_true_iff in H as [H | H].
    + apply String.eqb_eq in H. now subst.
    + specialize (IH H). simpl. rewrite IH.
      destruct (lastChar sub) eqn:E; [reflexivity |].
      now apply lastChar_None in E.
Qed.

Lemma noSpace_app (a b : string) :
  noSpace (a +:+ b) = noSpace a && noSpace b.
Proof.
  induction a as [|x a IH]; simpl; [reflexivity |].
  now rewrite IH, andb_assoc.
Qed.

Lemma noSpace_includes (s rest : string) :
  noSpace s = true -> includes s (String " " rest) = false.
Proof.
  induction s as [|c s IH]; intros H; [reflexivity |].
  simpl in H. apply andb_true_iff in H as [Hc Hs].
  cbn [includes String.prefix].
  destruct (ascii_dec " " c) as [<- | _]; [discriminate Hc |].
  now apply IH.
Qed.

Lemma noSpace_uint (u : Decimal.uint) :
  noSpace (NilEmpty.string_of_uint u) = true.
Proof. induction u; simpl; auto. Qed.

Lemma noSpace_number (n : JsNumber) : noSpace (NumberToString n) = true.
Proof.
  destruct n as [| | |z]; try reflexivity.
  unfold NumberToString, NilZero.string_of_int, NilZero.string_of_uint.
  destruct (Z.to_int z) as [u|u]; destruct u; simpl; auto using noSpace_uint.
Qed.

(** ** The integer options *)

Lemma removeUnsupportedIntegerOptions_requested (this : Instance) :
  truthy (_zerofill this) || truthy (_unsigned this) = true ->
  removeUnsupportedIntegerOptions this =
    (tt, set_zerofill JUndefined (set_unsigned JUndefined this),
     [ {| link := "https://www.sqlite.org/datatype3.html";
          text := "SQLite does not support '" +:+ key this +:+
                  "' with UNSIGNED or ZEROFILL. Plain '" +:+ key this +:+
                  "' will be used instead." |} ]).
Proof.
  intros H. unfold removeUnsupportedIntegerOptions, mbind, Method_bind, self.
  now rewrite H.
Qed.

Lemma removeUnsupportedIntegerOptions_plain (this : Instance) :
  truthy (_zerofill this) || truthy (_unsigned this) = false ->
  removeUnsupportedIntegerOptions this = (tt, this, []).
Proof.
  intros H. unfold removeUnsupportedIntegerOptions, mbind, Method_bind, self.
  now rewrite H.
Qed.

Lemma NUMBER_toSql_plain (this : Instance) :
  truthy (_unsigned this) = false -> truthy (_zerofill this) = false ->
  NUMBER_toSql this = (key this +:+ lengthClause this, this, []).
Proof.
  intros Hu Hz.
  unfold NUMBER_toSql, lengthClause, mbind, Method_bind, self, mret,
    Method_ret.
  rewrite Hu, Hz.
  destruct (truthy (_length this)); [| now rewrite append_empty_r].
  destruct (String.eqb (typeof (_decimals this)) "number");
    now rewrite ?append_assoc.
Qed.

Lemma lengthClause_shape (this : Instance) :
  lengthClause this = "" \/
  exists body, lengthClause this = body +:+ ")".
Proof.
  unfold lengthClause. destruct (truthy (_length this)); [right | now left].
  exists ("(" +:+ ToString (_length this) +:+
          (if String.eqb (typeof (_decimals this)) "number"
           then "," +:+ ToString (_decimals this) else "")).
  now rewrite 2!append_assoc.
Qed.

Lemma lengthClause_noSpace (this : Instance) :
  typeof (_length this) = "number" \/ _length this = JUndefined ->
  noSpace (lengthClause this) = true.
Proof.
  intros H. unfold lengthClause.
  destruct (truthy (_length this)) eqn:Ht; [| reflexivity].
  destruct H as [H | H]; [| now rewrite H in Ht].
  destruct (_length this) as [| | |n| |]; try discriminate H.
  cbn [ToString noSpace String.append]. rewrite !noSpace_app, noSpace_number.
  destruct (_decimals this) as [| | |d| |]; cbn; try reflexivity.
  now rewrite noSpace_number.
Qed.

Lemma integerTypes_inv (T : DataType) :
  T ∈ integerTypes ->
  constructor T = removeUnsupportedIntegerOptions /\
  prototype_toSql T = Some NUMBER_toSql /\
  noSpace (BaseTypes.key (base T)) = true /\
  endsWith (BaseTypes.key (base T)) " UNSIGNED" = false /\
  endsWith (BaseTypes.key (base T)) " ZEROFILL" = false.
Proof.
  unfold integerTypes. intros H.
  repeat (apply elem_of_cons in H as [-> | H]); [now vm_compute ..|].
  now apply elem_of_nil in H.
Qed.

Lemma not_endsWith_paren (s sub : string) (c : ascii) :
  lastChar sub = Some c -> c <> ")"%char ->
  endsWith (s +:+ ")") sub = false.
Proof.
  intros Hsub Hc. destruct (endsWith (s +:+ ")") sub) eqn:E; [| reflexivity].
  apply endsWith_lastChar in E.
  - rewrite lastChar_snoc, Hsub in E. congruence.
  - intros ->. discriminate Hsub.
Qed.

(** C1.  For each of TINYINT, SMALLINT, MEDIUMINT, INTEGER and BIGINT,
    constructing an instance from options that request unsigned or zerofill
    yields an instance (construction is a total function, nothing is
    rejected) with both flags cleared, after exactly one warning, whose
    text names the key of the type; the SQL then rendered is the key
    followed by the length clause alone, so it ends neither in ' UNSIGNED'
    nor in ' ZEROFILL', and when the length is a number or absent those
    words occur nowhere in it. *)
Theorem integer_unsigned_zerofill_dropped
  (T : DataType) (o : gmap string JsValue) :
  T ∈ integerTypes ->
  truthy (prop o "unsigned") = true \/ truthy (prop o "zerofill") = true ->
  exists toSql,
    prototype_toSql T = Some toSql /\
    let this := fst (construct T o) in
    let sql := result (toSql this) in
    _unsigned this = JUndefined /\
    _zerofill this = JUndefined /\
    snd (construct T o) =
      [ {| link := "https://www.sqlite.org/datatype3.html";
           text := "SQLite does not support '" +:+ BaseTypes.key (base T) +:+
                   "' with UNSIGNED or ZEROFILL. Plain '" +:+
                   BaseTypes.key (base T) +:+ "' will be used instead." |} ] /\
    sql = BaseTypes.key (base T) +:+ lengthClause this /\
    endsWith sql " UNSIGNED" = false /\
    endsWith sql " ZEROFILL" = false /\
    (typeof (prop o "length") = "number" \/ prop o "length" = JUndefined ->
     includes sql " UNSIGNED" = false /\ includes sql " ZEROFILL" = false).
Proof.
  intros HT Hreq.
  destruct (integerTypes_inv T HT) as (Hctor & Hsql & Hkey & HkU & HkZ).
  exists NUMBER_toSql. split; [exact Hsql |].
  unfold construct. rewrite Hctor.
  rewrite removeUnsupportedIntegerOptions_requested.
  2:{ cbn [BaseTypes_apply _zerofill _unsigned].
      destruct Hreq as [-> | ->]; [apply orb_true_r | reflexivity]. }
  cbn [after warnings fst snd].
  set (this := set_zerofill _ _).
  assert (Hrender : NUMBER_toSql this =
                    (BaseTypes.key (base T) +:+ lengthClause this, this, []))
    by now apply NUMBER_toSql_plain.
  cbv zeta. rewrite Hrender. cbn [result fst].
  repeat split; try reflexivity.
  - destruct (lengthClause_shape this) as [-> | [body ->]].
    + now rewrite append_empty_r.
    + rewrite <- append_assoc.
      now apply not_endsWith_paren with (c := "D"%char).
  - destruct (lengthClause_shape this) as [-> | [body ->]].
    + now rewrite append_empty_r.
    + rewrite <- append_assoc.
      now apply not_endsWith_paren with (c := "L"%char).
  - apply noSpace_includes. rewrite noSpace_app, Hkey.
    now apply lengthClause_noSpace.
  - apply noSpace_includes. rewrite noSpace_app, Hkey.
    now apply lengthClause_noSpace.
Qed.

(** The theorem at [new TINYINT({ length: 3, unsigned: true })]. *)
Lemma integer_unsigned_zerofill_dropped_witness :
  let o : gmap string JsValue :=
    <["unsigned" := JBool true]> (<["length" := JNumber (Finite 3)]> ∅) in
  TINYINT ∈ integerTypes /\
  (truthy (prop o "unsigned") = true \/ truthy (prop o "zerofill") = true) /\
  exists toSql,
    prototype_toSql TINYINT = Some toSql /\
    _unsigned (fst (construct TINYINT o)) = JUndefined /\
    _zerofill (fst (construct TINYINT o)) = JUndefined /\
    length (snd (construct TINYINT o)) = 1 /\
    result (toSql (fst (construct TINYINT o))) = "TINYINT(3)".
Proof.
  intros o.
  assert (HT : TINYINT ∈ integerTypes) by (vm_compute; left).
  assert (Hreq : truthy (prop o "unsigned") = true \/
                 truthy (prop o "zerofill") = true)
    by (left; vm_compute; reflexivity).
  split; [exact HT |]. split; [exact Hreq |].
  destruct (integer_unsigned_zerofill_dropped TINYINT o HT Hreq)
    as (toSql & Hsql & Hu & Hz & Hw & Hs & _).
  exists toSql.
  split; [exact Hsql |]. split; [exact Hu |]. split; [exact Hz |].
  split; [now rewrite Hw |].
  rewrite Hs. vm_compute. reflexivity.
Defined.

(** ** Rendering and the state of the instance *)

Lemma STRING_toSql_eq (this : Instance) :
  STRING_toSql this =
    ((if truthy (_binary this) then "VARCHAR BINARY(" else "VARCHAR(") +:+
     ToString (_length this) +:+ ")", this, []).
Proof.
  unfold STRING_toSql, BaseTypes_STRING_toSql, mbind, Method_bind, self,
    mret, Method_ret.
  now destruct (truthy (_binary this)).
Qed.

Lemma CHAR_toSql_eq (this : Instance) :
  CHAR_toSql this =
    ((if truthy (_binary this) then "CHAR BINARY(" else "CHAR(") +:+
     ToString (_length this) +:+ ")", this, []).
Proof.
  unfold CHAR_toSql, BaseTypes_CHAR_toSql, mbind, Method_bind, self,
    mret, Method_ret.
  now destruct (truthy (_binary this)).
Qed.

Lemma TEXT_toSql_eq (this : Instance) :
  TEXT_toSql this =
    if truthy (_length this) then
      ("TEXT", set_length JUndefined this,
       [ {| link := "https://www.sqlite.org/datatype3.html";
            text := "SQLite does not support TEXT with options. Plain `TEXT` will be used instead." |} ])
    else ("TEXT", this, []).
Proof.
  unfold TEXT_toSql, mbind, Method_bind, self, mret, Method_ret.
  now destruct (truthy (_length this)).
Qed.

Lemma NUMBER_toSql_frame (this : Instance) :
  after (NUMBER_toSql this) = this /\ warnings (NUMBER_toSql this) = [].
Proof. now unfold NUMBER_toSql, mbind, Method_bind, self, mret, Method_ret. Qed.

(** C2, as the code has it.  Every [toSql] of the module returns the same
    string when it is called a second time on the instance the first call
    left.  It leaves every field of the instance as it was and emits no
    warning, with one exception: rendering a TEXT instance whose length is
    set (truthy) resets that length to [undefined], the other fields
    staying the same. *)
Theorem toSql_effect (this : Instance) (toSql : Method string) :
  prototype_toSql (proto this) = Some toSql ->
  result (toSql (after (toSql this))) = result (toSql this) /\
  after (toSql this) =
    (if bool_decide (proto this = TEXT) && truthy (_length this)
     then set_length JUndefined this else this) /\
  (warnings (toSql this) = [] <->
   bool_decide (proto this = TEXT) && truthy (_length this) = false).
Proof.
  intros H.
  destruct (proto this) eqn:HT; cbn in H; inversion H; subst toSql; clear H;
    rewrite ?bool_decide_eq_false_2 by discriminate;
    rewrite ?bool_decide_eq_true_2 by reflexivity; cbn [andb];
    try (destruct (NUMBER_toSql_frame this) as [Ha Hw]; rewrite Ha, Hw;
         now repeat split);
    rewrite ?STRING_toSql_eq, ?CHAR_toSql_eq; try (now repeat split).
  rewrite (TEXT_toSql_eq this).
  destruct (truthy (_length this)) eqn:E; cbn [after result warnings fst snd];
    rewrite TEXT_toSql_eq; cbn [set_length _length truthy]; rewrite ?E;
    now repeat split.
Qed.

(** The theorem at [new TEXT({ length: 'tiny' })]. *)
Lemma toSql_effect_witness :
  let this := fst (construct TEXT (<["length" := JString "tiny"]> ∅)) in
  prototype_toSql (proto this) = Some TEXT_toSql /\
  result (TEXT_toSql (after (TEXT_toSql this))) = "TEXT" /\
  _length (after (TEXT_toSql this)) = JUndefined.
Proof.
  intros this.
  assert (H : prototype_toSql (proto this) = Some TEXT_toSql) by reflexivity.
  split; [exact H |].
  destruct (toSql_effect this TEXT_toSql H) as (Hs & Ha & _).
  split; [rewrite Hs; reflexivity | rewrite Ha; reflexivity].
Defined.

(** C2, as the spec has it, fails: [toSql] on a TEXT instance built with a
    length changes the instance, and emits a warning. *)
Lemma toSql_TEXT_changes_instance :
  let this := fst (construct TEXT (<["length" := JString "tiny"]> ∅)) in
  prototype_toSql (proto this) = Some TEXT_toSql /\
  _length this = JString "tiny" /\
  _length (after (TEXT_toSql this)) = JUndefined /\
  after (TEXT_toSql this) <> this /\
  length (warnings (TEXT_toSql this)) = 1.
Proof.
  cbv zeta. split; [reflexivity |]. split; [reflexivity |].
  split; [reflexivity |]. split; [| reflexivity].
  intros E. apply (f_equal _length) in E. discriminate E.
Qed.

(** ** Reverse mapping *)





Lemma construct_integer_plain (T : DataType) (o : gmap string JsValue) :
  T ∈ integerTypes ->
  truthy (_unsigned (fst (construct T o))) = false /\
  truthy (_zerofill (fst (construct T o))) = false.
Proof.
  intros HT. destruct (integerTypes_inv T HT) as (Hctor & _).
  unfold construct. rewrite Hctor.
  destruct (truthy (_zerofill (BaseTypes_apply T o)) ||
            truthy (_unsigned (BaseTypes_apply T o))) eqn:E.
  - now rewrite removeUnsupportedIntegerOptions_requested.
  - rewrite removeUnsupportedIntegerOptions_plain by exact E.
    apply orb_false_iff in E as [Hz Hu]. now split.
Qed.

Ltac by_evaluation :=
  first [ reflexivity
        | apply (bool_decide_unpack _); vm_compute; exact I ].

Lemma construct_other (T : DataType) (o : gmap string JsValue) :
  T ∉ integerTypes -> construct T o = (BaseTypes_apply T o, []).
Proof.
  intros HT. destruct T; try reflexivity; exfalso; apply HT; by_evaluation.
Qed.

Lemma construct_frame (T : DataType) (o : gmap string JsValue) :
  proto (fst (construct T o)) = T /\
  options (fst (construct T o)) = o /\
  _length (fst (construct T o)) = prop o "length" /\
  _binary (fst (construct T o)) = prop o "binary" /\
  _decimals (fst (construct T o)) = prop o "decimals".
Proof.
  destruct (decide (T ∈ integerTypes)) as [Hi | Hi].
  - destruct (integerTypes_inv T Hi) as (Hctor & _).
    unfold construct. rewrite Hctor.
    unfold removeUnsupportedIntegerOptions, mbind, Method_bind, self.
    now destruct (_ || _).
  - now rewrite construct_other.
Qed.




Lemma reverseLookup_spec (name : string) (T : BaseTypes.t) :
  T ∈ reverseLookup name <->
  exists aliases,
    In (T, Some aliases) BaseTypes.types_sqlite /\ name ∈ aliases.
Proof.
  unfold reverseLookup. rewrite list_elem_of_fmap. split.
  - intros ([T' entry] & -> & Hin).
    apply list_elem_of_In, filter_In in Hin as [Hin Hrow].
    cbn [fst snd] in *. destruct entry as [aliases |]; [| discriminate].
    exists aliases. split; [exact Hin |]. now apply bool_decide_eq_true in Hrow.
  - intros (aliases & Hin & Hname). exists (T, Some aliases).
    split; [reflexivity |]. apply list_elem_of_In, filter_In.
    split; [exact Hin |]. cbn [snd]. now apply bool_decide_eq_true.
Qed.

(** The one ambiguity of the table.  A TINYINT renders as [TINYINT], and
    the reverse table lists that name for BOOLEAN as well as for TINYINT;
    BOOLEAN has no other alias, so no name maps back to BOOLEAN alone. *)
Lemma TINYINT_reverse_lookup_ambiguous :
  let this := fst (construct TINYINT ∅) in
  reverseSupported TINYINT = Some ["TINYINT"] /\
  prototype_toSql TINYINT = Some NUMBER_toSql /\
  result (NUMBER_toSql this) = "TINYINT" /\
  reverseLookup (nativeTypeName (result (NUMBER_toSql this))) =
    [BaseTypes.TINYINT; BaseTypes.BOOLEAN] /\
  reverseLookup (nativeTypeName (result (NUMBER_toSql this))) <>
    [base TINYINT] /\
  (forall name, BaseTypes.BOOLEAN ∈ reverseLookup name ->
                name = "TINYINT" /\ BaseTypes.TINYINT ∈ reverseLookup name).
Proof.
  cbv zeta. do 5 (split; [by_evaluation |]).
  intros name H.
  assert (Hname : name = "TINYINT").
  { apply reverseLookup_spec in H as (aliases & Hin & Hname).
    cbn in Hin.
    repeat (destruct Hin as [Hin | Hin]; [try discriminate Hin |]);
      [| contradiction].
    inversion Hin; subst aliases. now apply list_elem_of_singleton in Hname. }
  split; [exact Hname |]. subst name. by_evaluation.
Qed.


(** ** Parsing *)

Lemma strictEqualsString_true (v : JsValue) (literal : string) :
  strictEqualsString v literal = true <-> v = JString literal.
Proof.
  destruct v; cbn; try (split; [discriminate | intros [=]]).
  rewrite String.eqb_eq. split; [now intros -> | now intros [= ->]].
Qed.

Lemma strictEqualsString_false (v : JsValue) (literal : string) :
  v <> JString literal -> strictEqualsString v literal = false.
Proof.
  intros H. destruct (strictEqualsString v literal) eqn:E; [| reflexivity].
  now apply strictEqualsString_true in E.
Qed.

(** C4.  The [parse] of FLOAT, of DOUBLE and of REAL maps the string
    "NaN" to NaN, the string "Infinity" to positive infinity, the string
    "-Infinity" to negative infinity, and returns every other value, string
    or not, as it was given. *)
Theorem floating_parse_special_values (T : DataType) :
  T ∈ floating ->
  exists p,
    parse T = Some p /\
    p (JString "NaN") = JNumber NaN /\
    p (JString "Infinity") = JNumber Infinity /\
    p (JString "-Infinity") = JNumber NegInfinity /\
    (forall s, s <> "NaN" -> s <> "Infinity" -> s <> "-Infinity" ->
               p (JString s) = JString s) /\
    (forall v, isString v = false -> p v = v).
Proof.
  intros HT. exists floating_parse. split.
  - unfold parse. now rewrite bool_decide_eq_true_2.
  - do 3 (split; [reflexivity |]). split.
    + intros s H1 H2 H3. unfold floating_parse. cbn [isString].
      rewrite !strictEqualsString_false by congruence. reflexivity.
    + intros v Hv. unfold floating_parse. now rewrite Hv.
Qed.

(** The theorem at DOUBLE, on the string "3.5" and on a number. *)
Lemma floating_parse_special_values_witness :
  DOUBLE ∈ floating /\
  exists p,
    parse DOUBLE = Some p /\
    p (JString "NaN") = JNumber NaN /\
    p (JString "3.5") = JString "3.5" /\
    p (JNumber (Finite 7)) = JNumber (Finite 7).
Proof.
  assert (HT : DOUBLE ∈ floating) by by_evaluation.
  split; [exact HT |].
  destruct (floating_parse_special_values DOUBLE HT)
    as (p & Hp & Hnan & _ & _ & Hstr & Hother).
  exists p. split; [exact Hp |]. split; [exact Hnan |]. split.
  - apply Hstr; discriminate.
  - now apply Hother.
Defined.

Lemma includes_char (s : string) (c : ascii) :
  includes s (String c "") = true <-> In c (list_ascii_of_string s).
Proof.
  induction s as [|x s IH]; cbn [includes String.prefix list_ascii_of_string].
  - split; [discriminate | intros []].
  - rewrite orb_true_iff, IH. cbn [In].
    destruct (ascii_dec c x) as [-> | Hne].
    + split; [now left | intros _; left; now destruct s].
    + split; [intros [H | H]; [discriminate | now right] |].
      intros [H | H]; [congruence | now right].
Qed.

Lemma prefix_append (a b : string) : String.prefix a (a +:+ b) = true.
Proof.
  induction a as [|c a IH]; cbn [String.append String.prefix].
  - now destruct b.
  - now destruct (ascii_dec c c).
Qed.

Section Builtins_facts.

Context {Timestamp Json SyntaxError : Type}.
Variable newDate : string -> Timestamp.
Variable JSON_parse : JsValue -> Completion Json SyntaxError.

(** C5.  [DATE.parse] of a string with no '+' in it is the timestamp of
    the string with the caller's timezone appended; of a string with a
    '+', the timestamp of the string alone.  So "2020-01-01 00:00:00"
    in timezone "+00:00" parses as "2020-01-01 00:00:00+00:00" does, in
    whatever timezone. *)
Theorem DATE_parse_timezone (date timezone : string) :
  (~ In "+"%char (list_ascii_of_string date) ->
   DATE_parse newDate date timezone = newDate (date +:+ timezone)) /\
  (In "+"%char (list_ascii_of_string date) ->
   DATE_parse newDate date timezone = newDate date) /\
  DATE_parse newDate "2020-01-01 00:00:00" "+00:00" =
    DATE_parse newDate "2020-01-01 00:00:00+00:00" timezone.
Proof.
  unfold DATE_parse. split; [| split].
  - intros H. destruct (includes date "+") eqn:E; [| reflexivity].
    now apply includes_char in E.
  - intros H. apply includes_char in H. now rewrite H.
  - reflexivity.
Qed.

(** C10.  A string that ends in a negative offset [-hh:mm] and has no
    '+' in it goes through the branch that concatenates: the timestamp
    is read from a string that starts with the whole input, offset
    included, and goes on with the caller's timezone. *)
Theorem DATE_parse_negative_offset (date timezone : string) :
  endsWithNegativeOffset date = true ->
  includes date "+" = false ->
  DATE_parse newDate date timezone = newDate (date +:+ timezone) /\
  String.prefix date (date +:+ timezone) = true.
Proof.
  intros _ H. unfold DATE_parse. rewrite H. split; [reflexivity |].
  apply prefix_append.
Qed.

(** C8.  [JSONTYPE.parse] ends exactly as [JSON.parse] of its argument
    does: where the input is valid JSON (the host's parser returns a
    value) it returns that decoded value, and where it is not, the
    call ends with the parser's exception, thrown on to the caller. *)
Theorem JSONTYPE_parse_propagates (data : JsValue) :
  ((exists value, JSON_parse data = Normal value) ->
   exists value, JSON_parse data = Normal value /\
                 JSONTYPE_parse JSON_parse data = Normal value) /\
  (~ (exists value, JSON_parse data = Normal value) ->
   exists e, JSON_parse data = Throw e /\
             JSONTYPE_parse JSON_parse data = Throw e).
Proof.
  unfold JSONTYPE_parse. split.
  - intros [value H]. now exists value.
  - intros H. destruct (JSON_parse data) as [value | e].
    + exfalso. apply H. now exists value.
    + now exists e.
Qed.

End Builtins_facts.

(** The theorem at the string of the example, with the string given to
    [new Date] kept as the timestamp. *)
Lemma DATE_parse_negative_offset_witness :
  endsWithNegativeOffset "2020-01-01 00:00:00-05:00" = true /\
  includes "2020-01-01 00:00:00-05:00" "+" = false /\
  DATE_parse (fun s : string => s) "2020-01-01 00:00:00-05:00" "+00:00" =
    "2020-01-01 00:00:00-05:00+00:00".
Proof.
  split; [reflexivity |]. split; [reflexivity |].
  apply (DATE_parse_negative_offset (fun s : string => s)
           "2020-01-01 00:00:00-05:00" "+00:00"); reflexivity.
Defined.

(** ** STRING, CHAR and TEXT *)

(** C6.  A STRING renders as [VARCHAR BINARY(length)] when its binary flag
    is set and as [VARCHAR(length)] when it is not; a CHAR as
    [CHAR BINARY(length)] and as [CHAR(length)]; whatever the length is. *)
Theorem STRING_CHAR_toSql_binary (this : Instance) :
  prototype_toSql STRING = Some STRING_toSql /\
  prototype_toSql CHAR = Some CHAR_toSql /\
  result (STRING_toSql this) =
    (if truthy (_binary this)
     then "VARCHAR BINARY(" +:+ ToString (_length this) +:+ ")"
     else "VARCHAR(" +:+ ToString (_length this) +:+ ")") /\
  result (CHAR_toSql this) =
    (if truthy (_binary this)
     then "CHAR BINARY(" +:+ ToString (_length this) +:+ ")"
     else "CHAR(" +:+ ToString (_length this) +:+ ")").
Proof.
  rewrite STRING_toSql_eq, CHAR_toSql_eq. cbn [result fst].
  now destruct (truthy (_binary this)).
Qed.

(** [STRING(10, true)], [STRING(10, false)] and their CHAR counterparts. *)
Example STRING_CHAR_10 :
  let o binary : gmap string JsValue :=
    <["length" := JNumber (Finite 10)]> (<["binary" := JBool binary]> ∅) in
  result (STRING_toSql (fst (construct STRING (o true)))) =
    "VARCHAR BINARY(10)" /\
  result (STRING_toSql (fst (construct STRING (o false)))) = "VARCHAR(10)" /\
  result (CHAR_toSql (fst (construct CHAR (o true)))) = "CHAR BINARY(10)" /\
  result (CHAR_toSql (fst (construct CHAR (o false)))) = "CHAR(10)".
Proof. vm_compute. now repeat split. Qed.

(** C7.  A TEXT renders as exactly [TEXT].  When the instance has a length
    (a truthy [_length]), rendering discards it, setting it to [undefined],
    and emits one warning; when it has none, rendering emits no warning
    and leaves the instance as it was. *)
Theorem TEXT_toSql_discards_length (this : Instance) :
  prototype_toSql TEXT = Some TEXT_toSql /\
  result (TEXT_toSql this) = "TEXT" /\
  (truthy (_length this) = true ->
   after (TEXT_toSql this) = set_length JUndefined this /\
   _length (after (TEXT_toSql this)) = JUndefined /\
   warnings (TEXT_toSql this) =
     [ {| link := "https://www.sqlite.org/datatype3.html";
          text := "SQLite does not support TEXT with options. Plain `TEXT` will be used instead." |} ]) /\
  (truthy (_length this) = false ->
   after (TEXT_toSql this) = this /\ warnings (TEXT_toSql this) = []).
Proof.
  rewrite TEXT_toSql_eq. split; [reflexivity |].
  destruct (truthy (_length this)); (split; [reflexivity |]); split;
    try discriminate; now intros _.
Qed.

(** ** Extension *)

Lemma all_exported (T : DataType) : T ∈ exports.*2.
Proof. destruct T; by_evaluation. Qed.

(** The key of the abstract type is the name of the export. *)
Lemma export_key_agrees (T : DataType) :
  export_key T = Some (BaseTypes.key (base T)).
Proof. now destruct T. Qed.

(** C9, as the code has it.  [extend], given an instance of the type,
    allocates a new instance of the same type, built by the constructor
    from the options object of the given one.  The new instance has those
    options and the fields the constructor reads from them: the binary flag
    and the length of a STRING or CHAR, the length of a TEXT, the length
    and decimals of a number type and its unsigned and zerofill flags,
    which an integer type has cleared.  It is a field-by-field copy of a
    given instance that is as its constructor left it.  The given instance
    is unchanged, and so is every other instance of the store. *)
Theorem extend_builds_from_options
  (T : DataType) (address : nat) (store : gmap nat Instance)
  (oldType : Instance) :
  store !! address = Some oldType ->
  proto oldType = T ->
  exists (fresh_address : nat) (newType : Instance) (w : list Warning),
    extend_in_store T address store =
      Some (fresh_address, <[fresh_address := newType]> store, w) /\
    store !! fresh_address = None /\
    fresh_address <> address /\
    (<[fresh_address := newType]> store) !! address = Some oldType /\
    proto newType = proto oldType /\
    options newType = options oldType /\
    (T ∈ [STRING; CHAR] ->
     _binary newType = prop (options oldType) "binary") /\
    (T ∈ [STRING; CHAR; TEXT] ->
     truthy (prop (options oldType) "length") = true ->
     _length newType = prop (options oldType) "length") /\
    (T ∈ numberTypes ->
     _length newType = prop (options oldType) "length" /\
     _decimals newType = prop (options oldType) "decimals") /\
    (T ∈ numberTypes -> T ∉ integerTypes ->
     _unsigned newType = prop (options oldType) "unsigned" /\
     _zerofill newType = prop (options oldType) "zerofill") /\
    (T ∈ integerTypes ->
     truthy (_unsigned newType) = false /\
     truthy (_zerofill newType) = false) /\
    (forall o, oldType = fst (construct T o) -> newType = oldType).
Proof.
  intros Hstore HT.
  exists (fresh (dom store)), (fst (extend T oldType)),
    (snd (extend T oldType)).
  assert (Hfresh : store !! fresh (dom store) = None)
    by (apply not_elem_of_dom, is_fresh).
  assert (Hne : fresh (dom store) <> address) by congruence.
  split; [unfold extend_in_store; now rewrite Hstore |].
  split; [exact Hfresh |]. split; [exact Hne |].
  split; [now rewrite lookup_insert_ne |].
  unfold extend.
  destruct (construct_frame T (options oldType))
    as (Hp & Ho & Hlen & Hbin & Hdec).
  split; [congruence |]. split; [exact Ho |].
  split; [now intros _ |]. split; [now intros _ _ |].
  split; [now intros _ |]. split.
  - intros _ Hi. now rewrite construct_other.
  - split; [now apply construct_integer_plain |].
    intros o ->. destruct (construct_frame T o) as (_ & -> & _).
    now destruct (construct T o).
Qed.

(** The theorem at a store that holds an INTEGER built with the unsigned
    flag and a length. *)
Lemma extend_builds_from_options_witness :
  let o : gmap string JsValue :=
    <["unsigned" := JBool true]> (<["length" := JNumber (Finite 11)]> ∅) in
  let oldType := fst (construct INTEGER o) in
  let store : gmap nat Instance := {[ 0 := oldType ]} in
  store !! 0 = Some oldType /\
  proto oldType = INTEGER /\
  exists fresh_address newType w,
    extend_in_store INTEGER 0 store =
      Some (fresh_address, <[fresh_address := newType]> store, w) /\
    fresh_address <> 0 /\
    _length newType = JNumber (Finite 11) /\
    truthy (_unsigned newType) = false /\
    newType = oldType.
Proof.
  intros o oldType store.
  assert (Hstore : store !! 0 = Some oldType) by reflexivity.
  assert (HT : proto oldType = INTEGER) by reflexivity.
  split; [exact Hstore |]. split; [exact HT |].
  destruct (extend_builds_from_options INTEGER 0 store oldType Hstore HT)
    as (a & newType & w & Hext & _ & Hne & _ & _ & _ & _ & _ & Hnum & _ &
        Hint & Hsame).
  exists a, newType, w.
  split; [exact Hext |]. split; [exact Hne |].
  split; [now rewrite (proj1 (Hnum ltac:(by_evaluation))) |].
  split; [now apply Hint; by_evaluation |].
  now apply (Hsame o).
Defined.

(** C9, as the spec has it, fails.  Rendering a TEXT built with a length
    discards the length of the instance and leaves its options alone;
    [extend] builds from the options, so the extension of the rendered
    instance has the length again, which the given instance no longer
    has. *)
Lemma extend_of_rendered_TEXT_differs :
  let o : gmap string JsValue := <["length" := JString "medium"]> ∅ in
  let oldType := after (TEXT_toSql (fst (construct TEXT o))) in
  proto oldType = TEXT /\
  _length oldType = JUndefined /\
  _length (fst (extend TEXT oldType)) = JString "medium" /\
  fst (extend TEXT oldType) <> oldType.
Proof.
  cbv zeta. do 3 (split; [reflexivity |]).
  intros E. apply (f_equal _length) in E. discriminate E.
Qed.

(** * Further properties of the module *)

(** ** [removeUnsupportedIntegerOptions] and the constructors *)

(** X1.  [removeUnsupportedIntegerOptions] is idempotent: run again on the
    instance it has left, it changes nothing and warns no more. *)
Theorem removeUnsupportedIntegerOptions_idempotent (this : Instance) :
  removeUnsupportedIntegerOptions
    (after (removeUnsupportedIntegerOptions this)) =
  (tt, after (removeUnsupportedIntegerOptions this), []).
Proof.
  destruct (truthy (_zerofill this) || truthy (_unsigned this)) eqn:E.
  - rewrite (removeUnsupportedIntegerOptions_requested this E).
    now apply removeUnsupportedIntegerOptions_plain.
  - rewrite (removeUnsupportedIntegerOptions_plain this E).
    now apply removeUnsupportedIntegerOptions_plain.
Qed.

(** X2.  [removeUnsupportedIntegerOptions] writes to the two flags and to
    nothing else: the options object (which goes on recording the request),
    the length, the binary flag and the decimals stay.  It warns at most
    once, and exactly when one of the flags is truthy; when neither is, the
    flags are left as they are, whatever falsy value they hold. *)
Theorem removeUnsupportedIntegerOptions_frame (this : Instance) :
  let r := removeUnsupportedIntegerOptions this in
  proto (after r) = proto this /\
  options (after r) = options this /\
  _length (after r) = _length this /\
  _binary (after r) = _binary this /\
  _decimals (after r) = _decimals this /\
  truthy (_unsigned (after r)) = false /\
  truthy (_zerofill (after r)) = false /\
  length (warnings r) =
    (if truthy (_zerofill this) || truthy (_unsigned this) then 1 else 0) /\
  (truthy (_zerofill this) || truthy (_unsigned this) = false ->
   after r = this).
Proof.
  cbv zeta.
  destruct (truthy (_zerofill this) || truthy (_unsigned this)) eqn:E.
  - rewrite (removeUnsupportedIntegerOptions_requested this E).
    cbn. repeat split; discriminate.
  - rewrite (removeUnsupportedIntegerOptions_plain this E).
    apply orb_false_iff in E as [Hz Hu]. cbn. now repeat split.
Qed.

(** X3.  Construction warns only for an integer type that is asked for
    unsigned or zerofill, and then once: every other type is built without
    a warning, and the number types that are not integers (NUMBER, FLOAT,
    REAL and DOUBLE) keep the flags they were given. *)
Theorem construct_warns_for_integers_only
  (T : DataType) (o : gmap string JsValue) :
  length (snd (construct T o)) =
    (if bool_decide (T ∈ integerTypes) &&
        (truthy (prop o "zerofill") || truthy (prop o "unsigned"))
     then 1 else 0) /\
  (T ∈ numberTypes -> T ∉ integerTypes ->
   _unsigned (fst (construct T o)) = prop o "unsigned" /\
   _zerofill (fst (construct T o)) = prop o "zerofill").
Proof.
  destruct (decide (T ∈ integerTypes)) as [Hi | Hi].
  - rewrite bool_decide_eq_true_2 by exact Hi. split; [| now intros _ []].
    destruct (integerTypes_inv T Hi) as (Hctor & _).
    unfold construct. rewrite Hctor. cbn [snd andb].
    change (prop o "zerofill") with (_zerofill (BaseTypes_apply T o)).
    change (prop o "unsigned") with (_unsigned (BaseTypes_apply T o)).
    destruct (truthy (_zerofill (BaseTypes_apply T o)) ||
              truthy (_unsigned (BaseTypes_apply T o))) eqn:E.
    + now rewrite removeUnsupportedIntegerOptions_requested.
    + now rewrite removeUnsupportedIntegerOptions_plain.
  - rewrite bool_decide_eq_false_2 by exact Hi.
    rewrite construct_other by exact Hi. now split.
Qed.

(** ** Rendering *)

Lemma NUMBER_toSql_shape (this : Instance) :
  NUMBER_toSql this =
    (key this +:+
     (if truthy (_unsigned this) then " UNSIGNED" else "") +:+
     (if truthy (_zerofill this) then " ZEROFILL" else "") +:+
     lengthClause this, this, []).
Proof.
  unfold NUMBER_toSql, lengthClause, mbind, Method_bind, self, mret,
    Method_ret.
  destruct (truthy (_unsigned this)), (truthy (_zerofill this)),
    (truthy (_length this)),
    (String.eqb (typeof (_decimals this)) "number");
    now rewrite ?append_assoc, ?append_empty_r.
Qed.

(** X4.  Every [toSql] of the module is idempotent on the instance: a
    second call, on the instance the first one left, returns the same
    string, changes nothing and emits no warning.  A TEXT built with a
    length is therefore warned about once, at its first rendering. *)
Theorem toSql_second_call_is_silent (this : Instance) (toSql : Method string) :
  prototype_toSql (proto this) = Some toSql ->
  toSql (after (toSql this)) =
    (result (toSql this), after (toSql this), []).
Proof.
  intros H.
  destruct (proto this); cbn in H; inversion H; subst toSql; clear H;
    rewrite ?NUMBER_toSql_shape, ?STRING_toSql_eq, ?CHAR_toSql_eq;
    try reflexivity.
  rewrite (TEXT_toSql_eq this).
  destruct (truthy (_length this)) eqn:E; cbn [after result fst snd];
    rewrite TEXT_toSql_eq; cbn [set_length _length truthy]; now rewrite ?E.
Qed.

(** The theorem at [new TEXT({ length: 'long' })]. *)
Lemma toSql_second_call_is_silent_witness :
  let this := fst (construct TEXT (<["length" := JString "long"]> ∅)) in
  prototype_toSql (proto this) = Some TEXT_toSql /\
  length (warnings (TEXT_toSql this)) = 1 /\
  warnings (TEXT_toSql (after (TEXT_toSql this))) = [].
Proof.
  intros this.
  assert (H : prototype_toSql (proto this) = Some TEXT_toSql) by reflexivity.
  split; [exact H |]. split; [reflexivity |].
  now rewrite (toSql_second_call_is_silent this TEXT_toSql H).
Defined.

(** X5.  An ENUM and a TEXT cannot be told apart in the rendered SQL: an
    ENUM renders as [TEXT] whatever its values, without touching the
    instance, which is what any TEXT renders as.  The alias table marks
    ENUM as unsupported and gives the name [TEXT] to TEXT. *)
Theorem ENUM_renders_as_TEXT (enum text : Instance) :
  prototype_toSql ENUM = Some ENUM_toSql /\
  ENUM_toSql enum = ("TEXT", enum, []) /\
  result (ENUM_toSql enum) = result (TEXT_toSql text) /\
  BaseTypes.sqlite (base ENUM) = Some None /\
  BaseTypes.sqlite (base TEXT) = Some (Some [result (ENUM_toSql enum)]).
Proof.
  rewrite TEXT_toSql_eq. now destruct (truthy (_length text)).
Qed.

(** X6.  [NUMBER.prototype.toSql] renders the decimals only inside a length
    clause: on an instance without a (truthy) length the decimals do not
    show at all, and decimals that are not a number never show. *)
Theorem NUMBER_toSql_decimals_need_length (this : Instance) (d : JsValue) :
  (truthy (_length this) = false ->
   result (NUMBER_toSql (set_decimals d this)) =
   result (NUMBER_toSql (set_decimals JUndefined this))) /\
  (typeof d <> "number" ->
   result (NUMBER_toSql (set_decimals d this)) =
   result (NUMBER_toSql (set_decimals JUndefined this))) /\
  (truthy (_length this) = true -> typeof d = "number" ->
   result (NUMBER_toSql (set_decimals d this)) =
   key this +:+
   (if truthy (_unsigned this) then " UNSIGNED" else "") +:+
   (if truthy (_zerofill this) then " ZEROFILL" else "") +:+
   "(" +:+ ToString (_length this) +:+ "," +:+ ToString d +:+ ")").
Proof.
  rewrite !NUMBER_toSql_shape. unfold lengthClause, key.
  cbn [result fst set_decimals proto _length _decimals _unsigned _zerofill].
  split; [| split].
  - now intros ->.
  - intros Hd. destruct (String.eqb (typeof d) "number") eqn:E;
      [now apply String.eqb_eq in E | reflexivity].
  - intros -> ->. reflexivity.
Qed.

Lemma prefix_empty (s : string) : String.prefix "" s = true.
Proof. now destruct s. Qed.

(** X7.  For the types rendered by [NUMBER.prototype.toSql], with a length
    that is a number or absent, the words UNSIGNED and ZEROFILL are in the
    rendered SQL exactly when the flag of that name is set on the
    instance. *)
Theorem NUMBER_toSql_shows_flags (this : Instance) :
  prototype_toSql (proto this) = Some NUMBER_toSql ->
  typeof (_length this) = "number" \/ _length this = JUndefined ->
  includes (result (NUMBER_toSql this)) " UNSIGNED" =
    truthy (_unsigned this) /\
  includes (result (NUMBER_toSql this)) " ZEROFILL" =
    truthy (_zerofill this).
Proof.
  intros Hp Hlen. rewrite NUMBER_toSql_shape. cbn [result fst].
  pose proof (lengthClause_noSpace this Hlen) as HL.
  revert HL. generalize (lengthClause this). intros L HL.
  unfold key.
  destruct (proto this); try discriminate Hp; clear Hp;
    destruct (truthy (_unsigned this)), (truthy (_zerofill this));
    cbn [base BaseTypes.key String.append includes String.prefix];
    cbn;
    rewrite ?prefix_empty, ?noSpace_includes by exact HL;
    split; reflexivity.
Qed.

(** The theorem at [new DOUBLE({ length: 8, zerofill: true })]. *)
Lemma NUMBER_toSql_shows_flags_witness :
  let this :=
    fst (construct DOUBLE
           (<["length" := JNumber (Finite 8)]>
              (<["zerofill" := JBool true]> ∅))) in
  result (NUMBER_toSql this) = "DOUBLE PRECISION ZEROFILL(8)" /\
  includes (result (NUMBER_toSql this)) " UNSIGNED" = false /\
  includes (result (NUMBER_toSql this)) " ZEROFILL" = true.
Proof.
  intros this. split; [vm_compute; reflexivity |].
  assert (Hp : prototype_toSql (proto this) = Some NUMBER_toSql)
    by reflexivity.
  assert (Hlen : typeof (_length this) = "number" \/ _length this = JUndefined)
    by (left; vm_compute; reflexivity).
  destruct (NUMBER_toSql_shows_flags this Hp Hlen) as [Hu Hz].
  split; [rewrite Hu | rewrite Hz]; vm_compute; reflexivity.
Defined.

(** X8.  A CITEXT renders as [TEXT COLLATE NOCASE] whatever the instance
    holds, without touching it; no abstract type of the alias table lists
    that text, so the table has no way back from it. *)
Theorem CITEXT_has_no_alias
  (this : Instance) (T : BaseTypes.t) (aliases : list string) :
  BaseTypes.sqlite T = Some (Some aliases) ->
  prototype_toSql CITEXT = Some CITEXT_toSql /\
  CITEXT_toSql this = ("TEXT COLLATE NOCASE", this, []) /\
  (result (CITEXT_toSql this) ∉ aliases) /\
  BaseTypes.sqlite (base CITEXT) = None.
Proof.
  intros H. do 2 (split; [reflexivity |]). split; [| reflexivity].
  destruct T; try discriminate H; inversion H; subst aliases;
    apply (bool_decide_unpack _); vm_compute; exact I.
Qed.

(** The theorem at the row of TEXT. *)
Lemma CITEXT_has_no_alias_witness :
  BaseTypes.sqlite BaseTypes.TEXT = Some (Some ["TEXT"]) /\
  "TEXT COLLATE NOCASE" ∉ ["TEXT"].
Proof.
  assert (H : BaseTypes.sqlite BaseTypes.TEXT = Some (Some ["TEXT"]))
    by reflexivity.
  split; [exact H |].
  destruct (CITEXT_has_no_alias (BaseTypes_apply CITEXT ∅)
              BaseTypes.TEXT ["TEXT"] H) as (_ & _ & Hn & _).
  exact Hn.
Defined.

(** ** The parse hooks *)

(** X9.  The [parse] of the floating types keeps the printed form of the
    value: the three strings it converts are the printed forms of the three
    numbers it converts them to.  It reads those three numbers back from
    their printed form, and nothing else: the printed form of a finite
    number stays the string it is. *)
Theorem floating_parse_printed_form (v : JsValue) (n : JsNumber) :
  ToString (floating_parse v) = ToString v /\
  floating_parse (JString (NumberToString n)) =
    match n with
    | Finite _ => JString (NumberToString n)
    | _ => JNumber n
    end.
Proof.
  split.
  - destruct v as [| | | |s|]; try reflexivity.
    unfold floating_parse. cbn [isString strictEqualsString].
    destruct (String.eqb s "NaN") eqn:E1;
      [now apply String.eqb_eq in E1; subst |].
    destruct (String.eqb s "Infinity") eqn:E2;
      [now apply String.eqb_eq in E2; subst |].
    destruct (String.eqb s "-Infinity") eqn:E3;
      [now apply String.eqb_eq in E3; subst | reflexivity].
  - destruct n as [| | |z]; try reflexivity.
    unfold NumberToString, NilZero.string_of_int, NilZero.string_of_uint.
    destruct (Z.to_int z) as [u | u]; destruct u; reflexivity.
Qed.

(** X10.  The [parse] of the floating types is idempotent, and it never
    returns one of the three strings it converts. *)
Theorem floating_parse_idempotent (v : JsValue) :
  floating_parse (floating_parse v) = floating_parse v /\
  floating_parse v <> JString "NaN" /\
  floating_parse v <> JString "Infinity" /\
  floating_parse v <> JString "-Infinity".
Proof.
  destruct v as [| | | |s|];
    try (repeat split; first [reflexivity | discriminate]).
  assert (Hs : floating_parse (JString s) = JNumber NaN \/
               floating_parse (JString s) = JNumber Infinity \/
               floating_parse (JString s) = JNumber NegInfinity \/
               floating_parse (JString s) = JString s /\
               s <> "NaN" /\ s <> "Infinity" /\ s <> "-Infinity").
  { unfold floating_parse. cbn [isString strictEqualsString].
    destruct (String.eqb s "NaN") eqn:E1; [now left |].
    destruct (String.eqb s "Infinity") eqn:E2; [now right; left |].
    destruct (String.eqb s "-Infinity") eqn:E3; [now right; right; left |].
    apply String.eqb_neq in E1, E2, E3. now right; right; right. }
  destruct Hs as [-> | [-> | [-> | (Hs & H1 & H2 & H3)]]];
    try (repeat split; first [reflexivity | discriminate]).
  rewrite !Hs. repeat split; congruence.
Qed.

Lemma includes_plus_app (a b : string) :
  includes (a +:+ b) "+" = includes a "+" || includes b "+".
Proof.
  induction a as [|c a IH]; [reflexivity |].
  cbn [String.append includes String.prefix]. rewrite IH, !prefix_empty.
  destruct (ascii_dec "+" c); [reflexivity |].
  now destruct (includes a "+").
Qed.

Section DATE_parse_facts.

Context {Timestamp : Type}.
Variable newDate : string -> Timestamp.

(** X11.  [DATE.parse] at its edges.  With an empty timezone the two
    branches agree and the timestamp is that of the string alone; an empty
    string is read as the timezone alone; and a '+' switches the timezone
    off wherever it stands in the string, not only in an offset at its
    end. *)
Theorem DATE_parse_edges (date timezone before rest : string) :
  DATE_parse newDate date "" = newDate date /\
  DATE_parse newDate "" timezone = newDate timezone /\
  DATE_parse newDate (before +:+ "+" +:+ rest) timezone =
    newDate (before +:+ "+" +:+ rest).
Proof.
  unfold DATE_parse. split; [| split].
  - rewrite append_empty_r. now destruct (includes date "+").
  - reflexivity.
  - rewrite includes_plus_app.
    replace (includes ("+" +:+ rest) "+") with true
      by (cbn [String.append includes String.prefix];
          now rewrite prefix_empty).
    now rewrite orb_true_r.
Qed.

(** X12.  With a timezone that has a '+' in it, the string [DATE.parse]
    hands to [new Date] always has a '+', so parsing that string again, in
    any timezone, reads the same timestamp.  With a timezone that has
    none, a string without '+' is handed on without one, and a second
    parse would append a timezone to it again. *)
Theorem DATE_parse_again (date timezone timezone' : string) :
  let handed := DATE_parse (fun s : string => s) date timezone in
  DATE_parse newDate date timezone = newDate handed /\
  includes handed "+" = includes date "+" || includes timezone "+" /\
  DATE_parse newDate handed timezone' =
    (if includes date "+" || includes timezone "+"
     then DATE_parse newDate date timezone
     else newDate ((date +:+ timezone) +:+ timezone')).
Proof.
  cbv zeta. unfold DATE_parse.
  destruct (includes date "+") eqn:Ed; cbn [negb orb].
  - rewrite Ed. now cbn [negb].
  - rewrite includes_plus_app, Ed. cbn [orb].
    now destruct (includes timezone "+").
Qed.

End DATE_parse_facts.

(** ** The alias table and the exports *)

(** X13.  Every alias list of the table is well formed: it is not empty,
    it repeats no name, and none of its names is empty or holds an opening
    parenthesis (a rendered type is cut at one to find its name). *)
Theorem alias_lists_well_formed (T : BaseTypes.t) (aliases : list string) :
  BaseTypes.sqlite T = Some (Some aliases) ->
  aliases <> [] /\
  NoDup aliases /\
  Forall (fun name => name <> "" /\ noParen name = true) aliases.
Proof.
  intros H.
  destruct T; try discriminate H; inversion H; subst aliases;
    (split; [discriminate |]);
    (split; [apply (bool_decide_unpack _); vm_compute; exact I |]);
    repeat constructor; discriminate.
Qed.

(** The theorem at the row of BLOB. *)
Lemma alias_lists_well_formed_witness :
  BaseTypes.sqlite BaseTypes.BLOB = Some (Some ["TINYBLOB"; "BLOB"; "LONGBLOB"]) /\
  NoDup ["TINYBLOB"; "BLOB"; "LONGBLOB"].
Proof.
  assert (H : BaseTypes.sqlite BaseTypes.BLOB =
              Some (Some ["TINYBLOB"; "BLOB"; "LONGBLOB"])) by reflexivity.
  split; [exact H |].
  destruct (alias_lists_well_formed BaseTypes.BLOB _ H) as (_ & Hn & _).
  exact Hn.
Defined.

(** X14.  A native type name identifies one abstract type: two abstract
    types that list the same name are the same type, the one exception
    being [TINYINT], listed by TINYINT and by BOOLEAN. *)
Theorem alias_identifies_one_type
  (name : string) (T1 T2 : BaseTypes.t) (aliases1 aliases2 : list string) :
  BaseTypes.sqlite T1 = Some (Some aliases1) ->
  BaseTypes.sqlite T2 = Some (Some aliases2) ->
  name ∈ aliases1 ->
  name ∈ aliases2 ->
  T1 = T2 \/
  name = "TINYINT" /\
  (T1 = BaseTypes.TINYINT /\ T2 = BaseTypes.BOOLEAN \/
   T1 = BaseTypes.BOOLEAN /\ T2 = BaseTypes.TINYINT).
Proof.
  intros H1 H2 Hn1 Hn2.
  destruct T1; try discriminate H1; inversion H1; subst aliases1; clear H1;
    repeat (apply elem_of_cons in Hn1 as [-> | Hn1]);
    try (now apply elem_of_nil in Hn1);
    destruct T2; try discriminate H2; inversion H2; subst aliases2; clear H2;
    first [ left; reflexivity
          | right; split; [reflexivity |];
            first [left; split; reflexivity | right; split; reflexivity]
          | exfalso;
            match type of Hn2 with
            | ?x ∈ ?l =>
                assert (Hno : x ∉ l)
                  by (apply (bool_decide_unpack _); vm_compute; exact I);
                exact (Hno Hn2)
            end ].
Qed.

(** The theorem at the name [TINYINT], listed by BOOLEAN and TINYINT. *)
Lemma alias_identifies_one_type_witness :
  "TINYINT" ∈ ["TINYINT"] /\
  BaseTypes.sqlite BaseTypes.BOOLEAN = Some (Some ["TINYINT"]) /\
  BaseTypes.sqlite BaseTypes.TINYINT = Some (Some ["TINYINT"]) /\
  BaseTypes.BOOLEAN <> BaseTypes.TINYINT.
Proof.
  assert (Hn : "TINYINT" ∈ ["TINYINT"]) by (apply elem_of_cons; now left).
  assert (H1 : BaseTypes.sqlite BaseTypes.BOOLEAN = Some (Some ["TINYINT"]))
    by reflexivity.
  assert (H2 : BaseTypes.sqlite BaseTypes.TINYINT = Some (Some ["TINYINT"]))
    by reflexivity.
  split; [exact Hn |]. split; [exact H1 |]. split; [exact H2 |].
  destruct (alias_identifies_one_type "TINYINT" BaseTypes.BOOLEAN
              BaseTypes.TINYINT _ _ H1 H2 Hn Hn) as [H | _];
    [discriminate H | discriminate].
Defined.

(** ** Extension and rendering together *)

Lemma toSql_keeps_options (this : Instance) (toSql : Method string) :
  prototype_toSql (proto this) = Some toSql ->
  options (after (toSql this)) = options this.
Proof.
  intros H.
  destruct (proto this); cbn in H; inversion H; subst toSql; clear H;
    rewrite ?NUMBER_toSql_shape, ?STRING_toSql_eq, ?CHAR_toSql_eq,
      ?TEXT_toSql_eq;
    try reflexivity.
  now destruct (truthy (_length this)).
Qed.

(** X15.  [extend] replays the construction: applied to an instance that
    came out of the constructor, before or after it was rendered, it
    returns what the constructor returned, warnings included.  So an
    integer type asked for unsigned or zerofill is warned about again at
    each extension, and the length a TEXT lost when it was rendered is
    back in its extension. *)
Theorem extend_replays_construction
  (T : DataType) (o : gmap string JsValue) :
  extend T (fst (construct T o)) = construct T o /\
  (forall toSql, prototype_toSql T = Some toSql ->
     extend T (after (toSql (fst (construct T o)))) = construct T o).
Proof.
  destruct (construct_frame T o) as (Hp & Ho & _).
  unfold extend. split; [now rewrite Ho |].
  intros toSql H. rewrite toSql_keeps_options, Ho; [reflexivity |].
  now rewrite Hp.
Qed.

Lemma TEXT_toSql_result (this : Instance) : result (TEXT_toSql this) = "TEXT".
Proof. rewrite TEXT_toSql_eq. now destruct (truthy (_length this)). Qed.

(** X16.  The rendered SQL tells the types of the module apart: two
    instances that render to the same string are of the same type, unless
    one is a TEXT and the other an ENUM. *)
Theorem rendered_sql_tells_types_apart
  (a b : Instance) (toSqlA toSqlB : Method string) :
  prototype_toSql (proto a) = Some toSqlA ->
  prototype_toSql (proto b) = Some toSqlB ->
  result (toSqlA a) = result (toSqlB b) ->
  proto a = proto b \/
  proto a = TEXT /\ proto b = ENUM \/
  proto a = ENUM /\ proto b = TEXT.
Proof.
  intros Ha Hb.
  rewrite <- (append_empty_r (result (toSqlA a))).
  rewrite <- (append_empty_r (result (toSqlB b))).
  assert (Hshape : forall (this : Instance) (toSql : Method string),
             prototype_toSql (proto this) = Some toSql ->
             exists rest,
               result (toSql this) +:+ "" =
               match proto this with
               | STRING => "VARCHAR" +:+ rest
               | CHAR => "CHAR" +:+ rest
               | TEXT | ENUM => "TEXT"
               | CITEXT => "TEXT COLLATE NOCASE"
               | DOUBLE => "DOUBLE PRECISION" +:+ rest
               | T => BaseTypes.key (base T) +:+ rest
               end /\
               (rest = "" \/ exists tail,
                  rest = String " " tail \/ rest = String "(" tail)).
  { intros this toSql H.
    destruct (proto this) eqn:HT; cbn in H; inversion H; subst toSql;
      clear H;
      rewrite ?NUMBER_toSql_shape, ?STRING_toSql_eq, ?CHAR_toSql_eq,
        ?TEXT_toSql_result;
      cbn [result fst]; unfold key; rewrite ?HT; cbn [base BaseTypes.key];
      rewrite ?append_empty_r;
      try (exists ""; split; [reflexivity | now left]).
    1, 2: destruct (truthy (_binary this));
      [ exists (" BINARY(" +:+ ToString (_length this) +:+ ")")
      | exists ("(" +:+ ToString (_length this) +:+ ")") ];
      (split; [reflexivity |]); right; eexists; cbn; eauto.
    all: unfold lengthClause;
      destruct (truthy (_unsigned this)), (truthy (_zerofill this)),
        (truthy (_length this));
      eexists; (split; [reflexivity |]); cbn; eauto. }
  destruct (Hshape a toSqlA Ha) as (ra & -> & Hra).
  destruct (Hshape b toSqlB Hb) as (rb & -> & Hrb).
  clear Hshape.
  destruct (proto a); try discriminate Ha; clear Ha;
    destruct (proto b); try discriminate Hb; clear Hb;
    intros E; auto;
    exfalso; cbn in E;
    destruct Hra as [-> | [ta [-> | ->]]];
    destruct Hrb as [-> | [tb [-> | ->]]];
    discriminate E.
Qed.

(** The theorem at a TEXT and an ENUM, which render alike, and at a
    TINYINT and a SMALLINT of the same length, which do not. *)
Lemma rendered_sql_tells_types_apart_witness :
  let text := fst (construct TEXT ∅) in
  let enum := fst (construct ENUM ∅) in
  let o : gmap string JsValue := <["length" := JNumber (Finite 4)]> ∅ in
  result (TEXT_toSql text) = result (ENUM_toSql enum) /\
  (proto text = TEXT /\ proto enum = ENUM) /\
  result (NUMBER_toSql (fst (construct TINYINT o))) <>
  result (NUMBER_toSql (fst (construct SMALLINT o))).
Proof.
  intros text enum o.
  assert (Ht : prototype_toSql (proto text) = Some TEXT_toSql) by reflexivity.
  assert (He : prototype_toSql (proto enum) = Some ENUM_toSql) by reflexivity.
  assert (E : result (TEXT_toSql text) = result (ENUM_toSql enum))
    by reflexivity.
  split; [exact E |]. split.
  - destruct (rendered_sql_tells_types_apart text enum _ _ Ht He E)
      as [H | [H | [H _]]]; [discriminate H | exact H | discriminate H].
  - intros E'.
    destruct (rendered_sql_tells_types_apart
                (fst (construct TINYINT o)) (fst (construct SMALLINT o))
                NUMBER_toSql NUMBER_toSql eq_refl eq_refl E')
      as [H | [[H _] | [H _]]]; discriminate H.
Defined.
